(** * The FastAPI application object ([fastapi/applications.py])

    A shallow embedding of class [FastAPI]: its constructor, [setup], the
    schema cache [openapi], and the registration methods, followed by the
    properties of the specification that concern them.

    Python objects become records, methods become functions that take the
    object and return the updated object, and a method that can raise returns
    a [result].  The dictionaries of the source are [gmap]s. *)

From stdpp Require Import gmap strings list fin_maps.

(** ** Python values, truthiness and exceptions *)

(** The values a URL option can hold at run time.  The options are annotated
    [Optional[str]], but [setup] tests them with [isinstance], so values of
    other types are part of the model. *)
Inductive PyVal : Type :=
  | PyNone
  | PyBool (b : bool)
  | PyInt (n : Z)
  | PyStr (s : string).

Global Instance PyVal_eq_dec : EqDecision PyVal.
Proof. solve_decision. Defined.

(** [bool(v)], as used by [if v:] and [not v]. *)
Definition truthy (v : PyVal) : bool :=
  match v with
  | PyNone => false
  | PyBool b => b
  | PyInt n => negb (n =? 0)%Z
  | PyStr s => negb (String.eqb s "")
  end.

(** [isinstance(v, str)] *)
Definition isinstance_str (v : PyVal) : bool :=
  match v with
  | PyStr _ => true
  | _ => false
  end.

(** [s.endswith(suffix)] *)
Definition endswith (s suffix : string) : bool :=
  let n := String.length s in
  let m := String.length suffix in
  if (m <=? n)%nat then String.eqb (String.substring (n - m) m s) suffix else false.

(** Truthiness of a list and of a dict: non-empty. *)
Definition list_truthy {A} (l : list A) : bool :=
  match l with
  | [] => false
  | _ :: _ => true
  end.

Definition dict_truthy {V} (d : gmap string V) : bool :=
  bool_decide (d ≠ ∅).

Inductive PyError : Type :=
  | AssertionError (msg : string)
  | RuntimeError (msg : string)
  | AttributeError (attribute : string).

(** The outcome of a call that may raise. *)
Inductive result (A : Type) : Type :=
  | Ok (a : A)
  | Raise (e : PyError).
Global Arguments Ok {A} a.
Global Arguments Raise {A} e.

Global Instance result_ret : MRet result := @Ok.
Global Instance result_bind : MBind result := λ A B f m,
  match m with
  | Ok a => f a
  | Raise e => Raise e
  end.

(** [assert cond, msg] *)
Definition assert (cond : bool) (msg : string) : result unit :=
  if cond then Ok tt else Raise (AssertionError msg).

(** ** Routes, middleware entries, handlers *)

(** The callables the module passes around are identified by name.  The four
    lambdas that [setup] creates are endpoints of their own. *)
Inductive Endpoint : Type :=
  | openapi_endpoint          (* lambda r: JSONResponse(self.openapi()) *)
  | swagger_ui_endpoint       (* lambda r: get_swagger_ui_html(...) *)
  | oauth2_redirect_endpoint  (* lambda r: get_swagger_ui_oauth2_redirect_html() *)
  | redoc_endpoint            (* lambda r: get_redoc_html(...) *)
  | UserEndpoint (name : string).

Inductive BaseRoute : Type :=
  | Route (path : PyVal) (endpoint : Endpoint) (methods : option (list string))
          (name : option string) (include_in_schema : bool)
  | Mount (path : string) (app : string) (name : option string).

Definition route_endpoint (r : BaseRoute) : option Endpoint :=
  match r with
  | Route _ e _ _ _ => Some e
  | Mount _ _ _ => None
  end.

Inductive MiddlewareClass : Type :=
  | ServerErrorMiddleware
  | MiddlewareCls (name : string).

Global Instance MiddlewareClass_eq_dec : EqDecision MiddlewareClass.
Proof. solve_decision. Defined.

(** [Middleware(cls, **options)] *)
Record Middleware : Type := mkMiddleware {
  cls : MiddlewareClass;
  options : gmap string PyVal
}.

(** Keys of the exception handler registry:
    [Union[int, Type[Exception]]]. *)
Inductive HandlerKey : Type :=
  | StatusCode (code : Z)
  | ExcClass (name : string).

Global Instance HandlerKey_eq_dec : EqDecision HandlerKey.
Proof. solve_decision. Defined.

Global Instance HandlerKey_countable : Countable HandlerKey.
Proof.
  refine (inj_countable'
    (λ k, match k with StatusCode c => inl c | ExcClass n => inr n end)
    (λ s, match s with inl c => StatusCode c | inr n => ExcClass n end) _).
  by intros [].
Defined.

Definition StarletteHTTPException : HandlerKey := ExcClass "StarletteHTTPException".
Definition RequestValidationError : HandlerKey := ExcClass "RequestValidationError".

Inductive Handler : Type :=
  | http_exception_handler
  | request_validation_exception_handler
  | UserHandler (name : string).

(** A startup or shutdown hook, [Callable[[], Any]]. *)
Inductive Callable : Type :=
  | Func (name : string).

(** ** The router *)

Module routing.

(** Modelled from the spec: [fastapi.routing.APIRouter] is not part of this
    module.  The spec describes the Router as an ordered sequence of route
    entries that owns the startup and shutdown hook lists and an optional
    webhook collection, and that supports incremental registration. *)
Record APIRouter : Type := mkAPIRouter {
  routes : list BaseRoute;
  on_startup : list Callable;
  on_shutdown : list Callable;
  webhooks : option (list BaseRoute)
}.

(** Modelled from the spec: the constructor call
    [APIRouter(routes=..., on_startup=..., on_shutdown=..., webhooks=...)];
    an omitted sequence is the empty one. *)
Definition new (routes : option (list BaseRoute))
    (on_startup on_shutdown : option (list Callable))
    (webhooks : option (list BaseRoute)) : APIRouter :=
  {| routes := default [] routes;
     on_startup := default [] on_startup;
     on_shutdown := default [] on_shutdown;
     webhooks := webhooks |}.

(** Modelled from the spec: [router.add_route(path, endpoint, methods=...,
    name=..., include_in_schema=...)] registers one more route entry at the
    end of the ordered collection.  The entry holds the path as it was passed;
    whatever the router itself requires of a path (that it is a string, how
    it starts) is outside this model, so nothing below relies on a path that
    is not a string being registered. *)
Definition add_route (path : PyVal) (endpoint : Endpoint)
    (methods : option (list string)) (name : option string)
    (include_in_schema : bool) (r : APIRouter) : APIRouter :=
  {| routes := routes r ++ [Route path endpoint methods name include_in_schema];
     on_startup := on_startup r;
     on_shutdown := on_shutdown r;
     webhooks := webhooks r |}.

(** [router.on_startup.append(func)] and [router.on_shutdown.append(func)] *)
Definition append_on_startup (func : Callable) (r : APIRouter) : APIRouter :=
  {| routes := routes r;
     on_startup := on_startup r ++ [func];
     on_shutdown := on_shutdown r;
     webhooks := webhooks r |}.

Definition append_on_shutdown (func : Callable) (r : APIRouter) : APIRouter :=
  {| routes := routes r;
     on_startup := on_startup r;
     on_shutdown := on_shutdown r ++ [func];
     webhooks := webhooks r |}.

End routing.

(** ** The application object *)

(** The keyword arguments of [FastAPI.__init__] that this module reads again
    after storing them.  [base_routes] is not a keyword argument: [__init__]
    never assigns the attribute [routes], so the value [setup] finds when it
    first reads [self.routes] is the one the base class provides; it is a
    parameter here, a list of the application's own, which is how the
    specification describes the application's route list.  The reading in
    which the attribute is the property of the base class [Starlette], a view
    of the router's list, is in [StarletteRoutes] below. *)
Module Args.
Record t : Type := mk {
  debug : bool;
  routes : option (list BaseRoute);
  title : string;
  description : string;
  version : string;
  openapi_url : PyVal;
  openapi_tags : option (list (gmap string PyVal));
  servers : option (list (gmap string PyVal));
  docs_url : PyVal;
  redoc_url : PyVal;
  swagger_ui_oauth2_redirect_url : PyVal;
  middleware : option (list Middleware);
  exception_handlers : option (gmap HandlerKey Handler);
  on_startup : option (list Callable);
  on_shutdown : option (list Callable);
  terms_of_service : option string;
  contact : option (gmap string PyVal);
  license_info : option (gmap string PyVal);
  webhooks : option (list BaseRoute);
  base_routes : list BaseRoute
}.

(** The defaults of the signature. *)
Definition defaults : t :=
  {| debug := false;
     routes := None;
     title := "FastAPI";
     description := "";
     version := "0.1.0";
     openapi_url := PyStr "/openapi.json";
     openapi_tags := None;
     servers := None;
     docs_url := PyStr "/docs";
     redoc_url := PyStr "/redoc";
     swagger_ui_oauth2_redirect_url := PyStr "/docs/oauth2-redirect";
     middleware := None;
     exception_handlers := None;
     on_startup := None;
     on_shutdown := None;
     terms_of_service := None;
     contact := None;
     license_info := None;
     webhooks := None;
     base_routes := [] |}.
End Args.

(** The attributes of a [FastAPI] instance that the methods below read or
    write.  ([state], [root_path], [dependencies], [default_response_class],
    [swagger_ui_init_oauth] and the like are stored by [__init__] and never
    read again in this module.) *)
Record FastAPI : Type := mkFastAPI {
  _debug : bool;
  router : routing.APIRouter;
  title : string;
  description : string;
  version : string;
  terms_of_service : option string;
  contact : option (gmap string PyVal);
  license_info : option (gmap string PyVal);
  openapi_url : PyVal;
  openapi_tags : option (list (gmap string PyVal));
  servers : list (gmap string PyVal);
  middleware : list Middleware;
  exception_handlers : gmap HandlerKey Handler;
  user_middleware : list Middleware;
  _openapi_schema : option (gmap string PyVal);
  docs_url : PyVal;
  redoc_url : PyVal;
  swagger_ui_oauth2_redirect_url : PyVal;
  routes : list BaseRoute
}.

(** Attribute assignments. *)
Definition set_router (r : routing.APIRouter) (self : FastAPI) : FastAPI :=
  mkFastAPI (_debug self) r (title self) (description self) (version self)
    (terms_of_service self) (contact self) (license_info self)
    (openapi_url self) (openapi_tags self) (servers self) (middleware self)
    (exception_handlers self) (user_middleware self) (_openapi_schema self)
    (docs_url self) (redoc_url self) (swagger_ui_oauth2_redirect_url self)
    (routes self).

Definition set_exception_handlers (h : gmap HandlerKey Handler) (self : FastAPI)
    : FastAPI :=
  mkFastAPI (_debug self) (router self) (title self) (description self)
    (version self) (terms_of_service self) (contact self) (license_info self)
    (openapi_url self) (openapi_tags self) (servers self) (middleware self)
    h (user_middleware self) (_openapi_schema self)
    (docs_url self) (redoc_url self) (swagger_ui_oauth2_redirect_url self)
    (routes self).

Definition set_user_middleware (um : list Middleware) (self : FastAPI) : FastAPI :=
  mkFastAPI (_debug self) (router self) (title self) (description self)
    (version self) (terms_of_service self) (contact self) (license_info self)
    (openapi_url self) (openapi_tags self) (servers self) (middleware self)
    (exception_handlers self) um (_openapi_schema self)
    (docs_url self) (redoc_url self) (swagger_ui_oauth2_redirect_url self)
    (routes self).

Definition set_openapi_schema (d : option (gmap string PyVal)) (self : FastAPI)
    : FastAPI :=
  mkFastAPI (_debug self) (router self) (title self) (description self)
    (version self) (terms_of_service self) (contact self) (license_info self)
    (openapi_url self) (openapi_tags self) (servers self) (middleware self)
    (exception_handlers self) (user_middleware self) d
    (docs_url self) (redoc_url self) (swagger_ui_oauth2_redirect_url self)
    (routes self).

Definition set_routes (rs : list BaseRoute) (self : FastAPI) : FastAPI :=
  mkFastAPI (_debug self) (router self) (title self) (description self)
    (version self) (terms_of_service self) (contact self) (license_info self)
    (openapi_url self) (openapi_tags self) (servers self) (middleware self)
    (exception_handlers self) (user_middleware self) (_openapi_schema self)
    (docs_url self) (redoc_url self) (swagger_ui_oauth2_redirect_url self)
    rs.

(** *** Registration methods *)

(** [self.user_middleware.insert(0, Middleware(middleware_class, **kwargs))] *)
Definition add_middleware (middleware_class : MiddlewareClass)
    (kwargs : gmap string PyVal) (self : FastAPI) : FastAPI :=
  set_user_middleware (mkMiddleware middleware_class kwargs :: user_middleware self) self.

(** [self.exception_handlers[exc_class_or_status_code] = handler] *)
Definition add_exception_handler (exc_class_or_status_code : HandlerKey)
    (handler : Handler) (self : FastAPI) : FastAPI :=
  set_exception_handlers
    (<[exc_class_or_status_code := handler]> (exception_handlers self)) self.

Definition add_event_handler (event_type : string) (func : Callable)
    (self : FastAPI) : result FastAPI :=
  _ ← assert (bool_decide (event_type = "startup") || bool_decide (event_type = "shutdown"))
         "event_type must be 'startup' or 'shutdown'";
  if bool_decide (event_type = "startup")
  then Ok (set_router (routing.append_on_startup func (router self)) self)
  else Ok (set_router (routing.append_on_shutdown func (router self)) self).

(** [self.router.add_route(path, route, methods=methods, name=name,
    include_in_schema=include_in_schema)] *)
Definition add_route (path : PyVal) (route : Endpoint)
    (methods : option (list string)) (name : option string)
    (include_in_schema : bool) (self : FastAPI) : FastAPI :=
  set_router (routing.add_route path route methods name include_in_schema (router self)) self.

(** [route = Mount(path, app=app, name=name); self.routes.append(route)] *)
Definition mount (path : string) (app : string) (name : option string)
    (self : FastAPI) : FastAPI :=
  set_routes (routes self ++ [Mount path app name]) self.

(** *** [setup] *)

(** [# Setup exception handlers] *)
Definition setup_exception_handlers (self : FastAPI) : FastAPI :=
  let self := add_exception_handler StarletteHTTPException http_exception_handler self in
  add_exception_handler RequestValidationError request_validation_exception_handler self.

(** The asserted condition
    [isinstance(self.openapi_url, str) and self.openapi_url.endswith(".json")] *)
Definition is_json_path (v : PyVal) : bool :=
  match v with
  | PyStr s => endswith s ".json"
  | _ => false
  end.

(** [# Setup OpenAPI] *)
Definition setup_openapi (self : FastAPI) : result FastAPI :=
  if truthy (openapi_url self) then
    _ ← assert (is_json_path (openapi_url self)) "openapi_url must end with '.json'";
    Ok (add_route (openapi_url self) openapi_endpoint None None false self)
  else Ok self.

(** [# Setup docs] *)
Definition setup_docs (self : FastAPI) : result FastAPI :=
  if truthy (docs_url self) then
    _ ← assert (isinstance_str (docs_url self)) "docs_url must be a string";
    let self := add_route (docs_url self) swagger_ui_endpoint None None false self in
    if truthy (swagger_ui_oauth2_redirect_url self) then
      Ok (add_route (swagger_ui_oauth2_redirect_url self) oauth2_redirect_endpoint
            None None false self)
    else Ok self
  else Ok self.

(** [# Setup Redoc] *)
Definition setup_redoc (self : FastAPI) : result FastAPI :=
  if truthy (redoc_url self) then
    _ ← assert (isinstance_str (redoc_url self)) "redoc_url must be a string";
    Ok (add_route (redoc_url self) redoc_endpoint None None false self)
  else Ok self.

(** [# Add routes]: [self.routes.extend(self.router.routes)] *)
Definition setup_routes (self : FastAPI) : FastAPI :=
  set_routes (routes self ++ routing.routes (router self)) self.

(** [for middleware in reversed(self.user_middleware):
       self.add_middleware(middleware.cls, **middleware.options)]

    [reversed] does not copy: the iterator keeps an index into the live list,
    starting at its last position.  Each step yields the entry at the index
    if the index is within the list, and decrements it; the body then inserts
    at the front of the same list.  [remaining] is the index plus one. *)
Fixpoint readd_reversed (remaining : nat) (self : FastAPI) : FastAPI :=
  match remaining with
  | 0 => self
  | S index =>
      match user_middleware self !! index with
      | Some m => readd_reversed index (add_middleware (cls m) (options m) self)
      | None => self
      end
  end.

(** [# Add middleware] *)
Definition setup_middleware (self : FastAPI) : FastAPI :=
  let self := add_middleware ServerErrorMiddleware {["debug" := PyBool (_debug self)]} self in
  let self := foldl (λ self m, add_middleware (cls m) (options m) self) self (middleware self) in
  readd_reversed (length (user_middleware self)) self.

Definition setup (self : FastAPI) : result FastAPI :=
  let self := if negb (list_truthy (routes self)) then set_routes [] self else self in
  let self := setup_exception_handlers self in
  self ← setup_openapi self;
  self ← setup_docs self;
  self ← setup_redoc self;
  let self := setup_routes self in
  Ok (setup_middleware self).

(** *** Construction *)

(** The attribute assignments of [__init__], before the call of [setup]. *)
Definition init_attributes (a : Args.t) : FastAPI :=
  {| _debug := Args.debug a;
     router := routing.new (Args.routes a) (Args.on_startup a) (Args.on_shutdown a)
                 (Args.webhooks a);
     title := Args.title a;
     description := Args.description a;
     version := Args.version a;
     terms_of_service := Args.terms_of_service a;
     contact := Args.contact a;
     license_info := Args.license_info a;
     openapi_url := Args.openapi_url a;
     openapi_tags := Args.openapi_tags a;
     servers := default [] (Args.servers a);
     middleware := default [] (Args.middleware a);
     exception_handlers := default ∅ (Args.exception_handlers a);
     user_middleware := [];
     _openapi_schema := None;
     docs_url := Args.docs_url a;
     redoc_url := Args.redoc_url a;
     swagger_ui_oauth2_redirect_url := Args.swagger_ui_oauth2_redirect_url a;
     routes := Args.base_routes a |}.

(** The constructor: the attribute assignments, then [self.setup()].  The
    object is returned only if [setup] does not raise. *)
Definition __init__ (a : Args.t) : result FastAPI :=
  setup (init_attributes a).

(** *** The schema cache *)

(** The schema compiler [fastapi.openapi.utils.get_openapi], a collaborator
    outside this module, with the keyword arguments [openapi] passes, in the
    order [title, version, description, routes, tags, servers,
    terms_of_service, contact, license_info, webhooks].  Nothing is assumed
    about its purity: its first argument is the number of times it has been
    invoked before. *)
Definition SchemaCompiler : Type :=
  nat → string → string → string → list BaseRoute →
  option (list (gmap string PyVal)) → list (gmap string PyVal) →
  option string → option (gmap string PyVal) → option (gmap string PyVal) →
  option (list BaseRoute) → gmap string PyVal.

Section Schema.

Variable get_openapi : SchemaCompiler.

(** [openapi] returns the document, the updated object and the updated number
    of compiler invocations. *)
Definition openapi (self : FastAPI) (calls : nat)
    : result (gmap string PyVal * FastAPI * nat) :=
  if negb (truthy (openapi_url self)) then
    Raise (RuntimeError "The OpenAPI URL is not set, it was disabled.")
  else
    let compile :=
      let d := get_openapi calls (title self) (version self) (description self)
                 (routes self) (openapi_tags self) (servers self)
                 (terms_of_service self) (contact self) (license_info self)
                 (routing.webhooks (router self)) in
      Ok (d, set_openapi_schema (Some d) self, S calls) in
    match _openapi_schema self with
    | Some d => if dict_truthy d then Ok (d, self, calls) else compile
    | None => compile
    end.

End Schema.

(** ** Concrete arguments

    Keyword arguments that differ from the defaults in one option. *)

Definition with_openapi_url (v : PyVal) (a : Args.t) : Args.t :=
  Args.mk (Args.debug a) (Args.routes a) (Args.title a) (Args.description a)
    (Args.version a) v (Args.openapi_tags a) (Args.servers a) (Args.docs_url a)
    (Args.redoc_url a) (Args.swagger_ui_oauth2_redirect_url a) (Args.middleware a)
    (Args.exception_handlers a) (Args.on_startup a) (Args.on_shutdown a)
    (Args.terms_of_service a) (Args.contact a) (Args.license_info a)
    (Args.webhooks a) (Args.base_routes a).

Definition with_docs_url (v : PyVal) (a : Args.t) : Args.t :=
  Args.mk (Args.debug a) (Args.routes a) (Args.title a) (Args.description a)
    (Args.version a) (Args.openapi_url a) (Args.openapi_tags a) (Args.servers a) v
    (Args.redoc_url a) (Args.swagger_ui_oauth2_redirect_url a) (Args.middleware a)
    (Args.exception_handlers a) (Args.on_startup a) (Args.on_shutdown a)
    (Args.terms_of_service a) (Args.contact a) (Args.license_info a)
    (Args.webhooks a) (Args.base_routes a).

Definition with_redoc_url (v : PyVal) (a : Args.t) : Args.t :=
  Args.mk (Args.debug a) (Args.routes a) (Args.title a) (Args.description a)
    (Args.version a) (Args.openapi_url a) (Args.openapi_tags a) (Args.servers a)
    (Args.docs_url a) v (Args.swagger_ui_oauth2_redirect_url a) (Args.middleware a)
    (Args.exception_handlers a) (Args.on_startup a) (Args.on_shutdown a)
    (Args.terms_of_service a) (Args.contact a) (Args.license_info a)
    (Args.webhooks a) (Args.base_routes a).

Definition with_routes (rs : list BaseRoute) (a : Args.t) : Args.t :=
  Args.mk (Args.debug a) (Some rs) (Args.title a) (Args.description a)
    (Args.version a) (Args.openapi_url a) (Args.openapi_tags a) (Args.servers a)
    (Args.docs_url a) (Args.redoc_url a) (Args.swagger_ui_oauth2_redirect_url a)
    (Args.middleware a) (Args.exception_handlers a) (Args.on_startup a)
    (Args.on_shutdown a) (Args.terms_of_service a) (Args.contact a)
    (Args.license_info a) (Args.webhooks a) (Args.base_routes a).

Definition with_middleware (ms : list Middleware) (a : Args.t) : Args.t :=
  Args.mk (Args.debug a) (Args.routes a) (Args.title a) (Args.description a)
    (Args.version a) (Args.openapi_url a) (Args.openapi_tags a) (Args.servers a)
    (Args.docs_url a) (Args.redoc_url a) (Args.swagger_ui_oauth2_redirect_url a)
    (Some ms) (Args.exception_handlers a) (Args.on_startup a) (Args.on_shutdown a)
    (Args.terms_of_service a) (Args.contact a) (Args.license_info a)
    (Args.webhooks a) (Args.base_routes a).

Definition with_exception_handlers (hs : gmap HandlerKey Handler) (a : Args.t)
    : Args.t :=
  Args.mk (Args.debug a) (Args.routes a) (Args.title a) (Args.description a)
    (Args.version a) (Args.openapi_url a) (Args.openapi_tags a) (Args.servers a)
    (Args.docs_url a) (Args.redoc_url a) (Args.swagger_ui_oauth2_redirect_url a)
    (Args.middleware a) (Some hs) (Args.on_startup a) (Args.on_shutdown a)
    (Args.terms_of_service a) (Args.contact a) (Args.license_info a)
    (Args.webhooks a) (Args.base_routes a).

(** ** Summaries used in the statements *)

(** The order of the middleware classes in [user_middleware], first entry
    first.  This list is all the module keeps of the chain: the composition
    itself is done by the base class from this list. *)
Definition middleware_order (self : FastAPI) : list MiddlewareClass :=
  cls <$> user_middleware self.

(** The entry [setup] installs first: [Middleware(ServerErrorMiddleware,
    debug=self._debug)]. *)
Definition error_boundary (debug : bool) : Middleware :=
  mkMiddleware ServerErrorMiddleware {["debug" := PyBool debug]}.

(** The routes that a run of [setup] registers with the router when it does
    not raise, in registration order ([setup_eq] proves it). *)
Definition url_routes (self : FastAPI) : list BaseRoute :=
  (if truthy (openapi_url self)
   then [Route (openapi_url self) openapi_endpoint None None false] else [])
  ++ (if truthy (docs_url self)
      then Route (docs_url self) swagger_ui_endpoint None None false
           :: (if truthy (swagger_ui_oauth2_redirect_url self)
               then [Route (swagger_ui_oauth2_redirect_url self)
                       oauth2_redirect_endpoint None None false]
               else [])
      else [])
  ++ (if truthy (redoc_url self)
      then [Route (redoc_url self) redoc_endpoint None None false] else []).

(** A value that is a string and not the empty one. *)
Definition is_nonempty_str (v : PyVal) : bool :=
  isinstance_str v && truthy v.

(** The router of [self] with [rs] registered after its routes. *)
Definition router_with (rs : list BaseRoute) (self : FastAPI) : FastAPI :=
  set_router
    (routing.mkAPIRouter (routing.routes (router self) ++ rs)
       (routing.on_startup (router self)) (routing.on_shutdown (router self))
       (routing.webhooks (router self)))
    self.

(** ** Concrete inputs *)

(** A middleware entry without options, [Middleware(name)]. *)
Definition plain_middleware (name : string) : Middleware :=
  mkMiddleware (MiddlewareCls name) ∅.

(** [FastAPI(middleware=[Middleware(A), Middleware(B)])] *)
Definition args_AB : Args.t :=
  with_middleware [plain_middleware "A"; plain_middleware "B"] Args.defaults.

(** A compiler whose version-tagged document records how many documents were
    compiled before it, so that no two invocations return the same one. *)
Definition tagged_compiler : SchemaCompiler :=
  λ calls title version _ _ _ _ _ _ _ _,
    {["openapi" := PyStr "3.0.2"; "title" := PyStr title; "version" := PyStr version;
      "x-compiled-before" := PyInt (Z.of_nat calls)]}.

(** A compiler that returns the empty dict. *)
Definition empty_compiler : SchemaCompiler :=
  λ _ _ _ _ _ _ _ _ _ _ _, ∅.

(** [FastAPI(routes=[Route("/items", items)])] *)
Definition args_items : Args.t :=
  with_routes [Route (PyStr "/items") (UserEndpoint "items") None None true]
    Args.defaults.

(** Handlers of the application author for the two built-in keys and for
    status code 404. *)
Definition custom_handlers : gmap HandlerKey Handler :=
  {[ StarletteHTTPException := UserHandler "my_http_handler";
     RequestValidationError := UserHandler "my_validation_handler";
     StatusCode 404 := UserHandler "my_not_found" ]}.


Definition with_swagger_ui_oauth2_redirect_url (v : PyVal) (a : Args.t) : Args.t :=
  Args.mk (Args.debug a) (Args.routes a) (Args.title a) (Args.description a)
    (Args.version a) (Args.openapi_url a) (Args.openapi_tags a) (Args.servers a)
    (Args.docs_url a) (Args.redoc_url a) v (Args.middleware a)
    (Args.exception_handlers a) (Args.on_startup a) (Args.on_shutdown a)
    (Args.terms_of_service a) (Args.contact a) (Args.license_info a)
    (Args.webhooks a) (Args.base_routes a).

(** Successive calls [add_event_handler(event_type, f)] for the functions of
    [fs], in order; the first call that raises ends the sequence. *)
Definition add_event_handlers (event_type : string) (fs : list Callable)
    (self : FastAPI) : result FastAPI :=
  foldl (λ acc f, acc ≫= add_event_handler event_type f) (Ok self) fs.

(** Successive calls [add_middleware(m.cls, **m.options)] for the entries of
    [ms], in order. *)
Definition add_middlewares (ms : list Middleware) (self : FastAPI) : FastAPI :=
  foldl (λ self m, add_middleware (cls m) (options m) self) self ms.

(** Successive calls [add_event_handler(event_type, f)] for the pairs
    [(event_type, f)] of [events], in order; the first call that raises ends
    the sequence. *)
Definition register_events (events : list (string * Callable)) (self : FastAPI)
    : result FastAPI :=
  foldl (λ acc ev, acc ≫= add_event_handler ev.1 ev.2) (Ok self) events.

(** ** The attribute [routes] as the base class has it

    [FastAPI.__init__] does not call the constructor of [Starlette] and never
    assigns [self.routes]; the class [Starlette] defines [routes] as a
    read-only property that returns [self.router.routes].  With the property
    in place every [self.routes] of this module designates the router's list.
    The three places that use it are given here for that reading, with the
    other phases of [setup] as above; the record field [routes] is not used. *)
Module StarletteRoutes.

(** [Starlette.routes]: [return self.router.routes] *)
Definition routes (self : FastAPI) : list BaseRoute :=
  routing.routes (router self).

(** [if not self.routes: self.routes = []]: the assignment is to the
    property, which has no setter. *)
Definition setup_own_routes (self : FastAPI) : result FastAPI :=
  if negb (list_truthy (routes self)) then Raise (AttributeError "routes") else Ok self.

(** [self.routes.extend(self.router.routes)]: one list, extended with the
    entries it holds. *)
Definition setup_routes (self : FastAPI) : FastAPI :=
  router_with (routes self) self.

Definition setup (self : FastAPI) : result FastAPI :=
  self ← setup_own_routes self;
  let self := setup_exception_handlers self in
  self ← setup_openapi self;
  self ← setup_docs self;
  self ← setup_redoc self;
  let self := setup_routes self in
  Ok (setup_middleware self).

Definition __init__ (a : Args.t) : result FastAPI :=
  setup (init_attributes a).

(** [route = Mount(path, app=app, name=name); self.routes.append(route)] *)
Definition mount (path : string) (app : string) (name : option string)
    (self : FastAPI) : FastAPI :=
  router_with [Mount path app name] self.

End StarletteRoutes.

(** ** Basic facts *)

Lemma is_json_path_truthy (v : PyVal) : is_json_path v = true → truthy v = true.
Proof.
  destruct v as [| | |s]; simpl; try discriminate.
  intros He. destruct s; [discriminate | reflexivity].
Qed.

Lemma is_nonempty_str_spec (v : PyVal) :
  is_nonempty_str v = true ↔ ∃ s, v = PyStr s ∧ s ≠ "".
Proof.
  unfold is_nonempty_str. split.
  - destruct v as [| | |s]; simpl; try discriminate.
    intros Hs. exists s. split; [reflexivity |]. intros ->. discriminate.
  - intros (s & -> & Hs). simpl. destruct s; [done | reflexivity].
Qed.

Lemma set_user_middleware_id (self : FastAPI) :
  set_user_middleware (user_middleware self) self = self.
Proof. by destruct self. Qed.

Lemma set_user_middleware_twice (um um' : list Middleware) (self : FastAPI) :
  set_user_middleware um (set_user_middleware um' self) = set_user_middleware um self.
Proof. reflexivity. Qed.

Lemma Middleware_eta (m : Middleware) : mkMiddleware (cls m) (options m) = m.
Proof. by destruct m. Qed.

(** ** The middleware loops of [setup] *)

(** The loop over the constructor-supplied entries prepends them one by one. *)
Lemma add_constructor_middleware (ms : list Middleware) (self : FastAPI) :
  foldl (λ self m, add_middleware (cls m) (options m) self) self ms
  = set_user_middleware (rev ms ++ user_middleware self) self.
Proof.
  revert self. induction ms as [|m ms IH]; intros self; simpl.
  - by destruct self.
  - rewrite IH. unfold add_middleware. rewrite set_user_middleware_twice.
    simpl. by rewrite Middleware_eta, <- app_assoc.
Qed.

(** The loop over [reversed(self.user_middleware)] only prepends, whatever the
    iterator yields, and runs as many steps as the list was long. *)
Lemma readd_reversed_prepends (n : nat) (self : FastAPI) :
  n ≤ length (user_middleware self) →
  ∃ pre, length pre = n ∧
    readd_reversed n self = set_user_middleware (pre ++ user_middleware self) self.
Proof.
  revert self. induction n as [|n IH]; intros self Hn; simpl.
  - exists []. by destruct self.
  - destruct (user_middleware self !! n) as [m|] eqn:Hm.
    + destruct (IH (add_middleware (cls m) (options m) self)) as (pre & Hlen & ->).
      { simpl. lia. }
      exists (pre ++ [mkMiddleware (cls m) (options m)]). split.
      * rewrite length_app. simpl. lia.
      * unfold add_middleware. rewrite set_user_middleware_twice. simpl.
        by rewrite <- List.app_assoc.
    + apply lookup_ge_None in Hm. lia.
Qed.

Lemma setup_middleware_prepends (self : FastAPI) :
  ∃ pre,
    setup_middleware self
    = set_user_middleware
        (pre ++ rev (middleware self) ++ error_boundary (_debug self) :: user_middleware self)
        self.
Proof.
  unfold setup_middleware. rewrite add_constructor_middleware.
  match goal with |- context [readd_reversed ?n ?s] =>
    destruct (readd_reversed_prepends n s) as (pre & _ & ->); [done |] end.
  by exists pre.
Qed.

(** ** The phases of [setup] *)

Lemma router_with_nil (self : FastAPI) : router_with [] self = self.
Proof.
  destruct self as [? [] ? ? ? ? ? ? ? ? ? ? ? ? ? ? ? ? ?].
  unfold router_with, set_router. simpl. by rewrite app_nil_r.
Qed.

Lemma router_with_app (rs rs' : list BaseRoute) (self : FastAPI) :
  router_with rs' (router_with rs self) = router_with (rs ++ rs') self.
Proof. unfold router_with, set_router. simpl. by rewrite <- List.app_assoc. Qed.

Lemma add_route_router_with path e ms n b (self : FastAPI) :
  add_route path e ms n b self = router_with [Route path e ms n b] self.
Proof. reflexivity. Qed.

Lemma setup_openapi_eq (self : FastAPI) :
  setup_openapi self =
  if truthy (openapi_url self) && negb (is_json_path (openapi_url self))
  then Raise (AssertionError "openapi_url must end with '.json'")
  else Ok (router_with
             (if truthy (openapi_url self)
              then [Route (openapi_url self) openapi_endpoint None None false]
              else []) self).
Proof.
  unfold setup_openapi, assert, mbind, result_bind.
  destruct (truthy (openapi_url self)); simpl.
  - by destruct (is_json_path (openapi_url self)).
  - by rewrite router_with_nil.
Qed.

Lemma setup_docs_eq (self : FastAPI) :
  setup_docs self =
  if truthy (docs_url self) && negb (isinstance_str (docs_url self))
  then Raise (AssertionError "docs_url must be a string")
  else Ok (router_with
             (if truthy (docs_url self)
              then Route (docs_url self) swagger_ui_endpoint None None false
                   :: (if truthy (swagger_ui_oauth2_redirect_url self)
                       then [Route (swagger_ui_oauth2_redirect_url self)
                               oauth2_redirect_endpoint None None false]
                       else [])
              else []) self).
Proof.
  unfold setup_docs, assert, mbind, result_bind.
  destruct (truthy (docs_url self)); simpl.
  - destruct (isinstance_str (docs_url self)); simpl; [|done].
    destruct (truthy (swagger_ui_oauth2_redirect_url self)); [|done].
    by rewrite !add_route_router_with, router_with_app.
  - by rewrite router_with_nil.
Qed.

Lemma setup_redoc_eq (self : FastAPI) :
  setup_redoc self =
  if truthy (redoc_url self) && negb (isinstance_str (redoc_url self))
  then Raise (AssertionError "redoc_url must be a string")
  else Ok (router_with
             (if truthy (redoc_url self)
              then [Route (redoc_url self) redoc_endpoint None None false]
              else []) self).
Proof.
  unfold setup_redoc, assert, mbind, result_bind.
  destruct (truthy (redoc_url self)); simpl.
  - by destruct (isinstance_str (redoc_url self)).
  - by rewrite router_with_nil.
Qed.

(** The first statement of [setup] leaves the route list as it found it: it
    replaces an empty list by an empty list. *)
Lemma setup_own_routes (self : FastAPI) :
  (if negb (list_truthy (routes self)) then set_routes [] self else self) = self.
Proof. destruct self as [? ? ? ? ? ? ? ? ? ? ? ? ? ? ? ? ? ? rs]. by destruct rs. Qed.

(** [setup] in one equation: the three assertions in the order the source
    runs them, and the object a run without error returns. *)
Lemma setup_eq (self : FastAPI) :
  setup self =
  if truthy (openapi_url self) && negb (is_json_path (openapi_url self))
  then Raise (AssertionError "openapi_url must end with '.json'")
  else if truthy (docs_url self) && negb (isinstance_str (docs_url self))
  then Raise (AssertionError "docs_url must be a string")
  else if truthy (redoc_url self) && negb (isinstance_str (redoc_url self))
  then Raise (AssertionError "redoc_url must be a string")
  else Ok (setup_middleware
             (set_routes (routes self ++ routing.routes (router self) ++ url_routes self)
                (router_with (url_routes self) (setup_exception_handlers self)))).
Proof.
  unfold setup. rewrite setup_own_routes. unfold mbind, result_bind.
  rewrite setup_openapi_eq. simpl.
  destruct (truthy (openapi_url self) && negb (is_json_path (openapi_url self))); [done|].
  rewrite setup_docs_eq. simpl.
  destruct (truthy (docs_url self) && negb (isinstance_str (docs_url self))); [done|].
  rewrite setup_redoc_eq. simpl.
  destruct (truthy (redoc_url self) && negb (isinstance_str (redoc_url self))); [done|].
  rewrite !router_with_app. reflexivity.
Qed.

(** ** Construction *)

(** The object a construction that returns hands back. *)
Lemma init_Ok_inv (a : Args.t) (app : FastAPI) :
  __init__ a = Ok app →
  (truthy (Args.openapi_url a) = true → is_json_path (Args.openapi_url a) = true) ∧
  (truthy (Args.docs_url a) = true → isinstance_str (Args.docs_url a) = true) ∧
  (truthy (Args.redoc_url a) = true → isinstance_str (Args.redoc_url a) = true) ∧
  ∃ pre,
    app =
    set_user_middleware
      (pre ++ rev (default [] (Args.middleware a)) ++ [error_boundary (Args.debug a)])
      (set_routes
         (Args.base_routes a ++ default [] (Args.routes a) ++ url_routes (init_attributes a))
         (router_with (url_routes (init_attributes a))
            (setup_exception_handlers (init_attributes a)))).
Proof.
  unfold __init__. rewrite setup_eq. simpl.
  destruct (truthy (Args.openapi_url a)), (is_json_path (Args.openapi_url a));
    simpl; try discriminate;
  (destruct (truthy (Args.docs_url a)), (isinstance_str (Args.docs_url a));
    simpl; try discriminate);
  (destruct (truthy (Args.redoc_url a)), (isinstance_str (Args.redoc_url a));
    simpl; try discriminate);
  intros [= <-]; (repeat split; try done);
  match goal with |- context [setup_middleware ?s] =>
    destruct (setup_middleware_prepends s) as (pre & ->) end;
  by exists pre.
Qed.

(** Construction returns an object as soon as the three URL options pass
    their assertions. *)
Lemma init_Ok_intro (a : Args.t) :
  (truthy (Args.openapi_url a) = true → is_json_path (Args.openapi_url a) = true) →
  (truthy (Args.docs_url a) = true → isinstance_str (Args.docs_url a) = true) →
  (truthy (Args.redoc_url a) = true → isinstance_str (Args.redoc_url a) = true) →
  ∃ app, __init__ a = Ok app.
Proof.
  intros Hu Hd Hr. unfold __init__. rewrite setup_eq. simpl.
  destruct (truthy (Args.openapi_url a)); [rewrite Hu by done|]; simpl;
  (destruct (truthy (Args.docs_url a)); [rewrite Hd by done|]; simpl);
  (destruct (truthy (Args.redoc_url a)); [rewrite Hr by done|]; simpl);
  eauto.
Qed.

(** The first assertion that fails is the one that is raised. *)
Lemma init_raises_openapi (a : Args.t) :
  truthy (Args.openapi_url a) = true → is_json_path (Args.openapi_url a) = false →
  __init__ a = Raise (AssertionError "openapi_url must end with '.json'").
Proof.
  intros Hu Hj. unfold __init__. rewrite setup_eq. simpl. by rewrite Hu, Hj.
Qed.

Lemma init_raises_docs (a : Args.t) :
  truthy (Args.docs_url a) = true → isinstance_str (Args.docs_url a) = false →
  ∃ msg, __init__ a = Raise (AssertionError msg).
Proof.
  intros Hd Hs. unfold __init__. rewrite setup_eq. simpl. rewrite Hd, Hs. simpl.
  destruct (truthy (Args.openapi_url a) && negb (is_json_path (Args.openapi_url a)));
    eauto.
Qed.

Lemma init_raises_redoc (a : Args.t) :
  truthy (Args.redoc_url a) = true → isinstance_str (Args.redoc_url a) = false →
  ∃ msg, __init__ a = Raise (AssertionError msg).
Proof.
  intros Hr Hs. unfold __init__. rewrite setup_eq. simpl. rewrite Hr, Hs. simpl.
  destruct (truthy (Args.openapi_url a) && negb (is_json_path (Args.openapi_url a)));
    [eauto|].
  destruct (truthy (Args.docs_url a) && negb (isinstance_str (Args.docs_url a)));
    eauto.
Qed.

(** A falsy URL option, the empty string included, is treated as unset: the
    phase neither raises nor registers anything. *)
Lemma falsy_openapi_url_is_unset (self : FastAPI) :
  truthy (openapi_url self) = false → setup_openapi self = Ok self.
Proof. intros H. unfold setup_openapi. by rewrite H. Qed.

Lemma falsy_docs_url_is_unset (self : FastAPI) :
  truthy (docs_url self) = false → setup_docs self = Ok self.
Proof. intros H. unfold setup_docs. by rewrite H. Qed.

Lemma falsy_redoc_url_is_unset (self : FastAPI) :
  truthy (redoc_url self) = false → setup_redoc self = Ok self.
Proof. intros H. unfold setup_redoc. by rewrite H. Qed.

(** Builds the object for concrete arguments without computing it. *)
Ltac construct args :=
  destruct (init_Ok_intro args) as [app Hinit];
  [ first [intros _; vm_compute; reflexivity | vm_compute; discriminate] ..
  | exists app; split; [exact Hinit|] ].

(** ** Middleware order *)




(** ** The schema cache *)

Section SchemaCache.

Variable get_openapi : SchemaCompiler.

(** The compiled document is version-tagged, hence not the empty dict. *)
Hypothesis get_openapi_tagged :
  ∀ calls title version description routes tags servers tos contact license webhooks,
    get_openapi calls title version description routes tags servers tos contact
      license webhooks ≠ ∅.

Lemma openapi_cache_hit (self : FastAPI) (calls : nat) (d : gmap string PyVal) :
  truthy (openapi_url self) = true → _openapi_schema self = Some d → d ≠ ∅ →
  openapi get_openapi self calls = Ok (d, self, calls).
Proof.
  intros Hu Hs Hd. unfold openapi. rewrite Hu, Hs. simpl.
  unfold dict_truthy. by rewrite bool_decide_eq_true_2.
Qed.

(** Claim C2.  For an application whose schema URL is configured (it passes
    the guard of [openapi]), a call of [openapi] returns a document [d] and
    leaves it stored in [_openapi_schema]; the next call returns the same [d]
    from the store, changes nothing and does not invoke the compiler.  If
    nothing was stored before the first call, [d] is what the compiler
    returned for the current routes and metadata, compiled once. *)
Theorem openapi_twice_same_document (self : FastAPI) (calls : nat) :
  truthy (openapi_url self) = true →
  ∃ d self1 calls1,
    openapi get_openapi self calls = Ok (d, self1, calls1)
    ∧ _openapi_schema self1 = Some d
    ∧ openapi get_openapi self1 calls1 = Ok (d, self1, calls1)
    ∧ (_openapi_schema self = None →
       d = get_openapi calls (title self) (version self) (description self)
             (routes self) (openapi_tags self) (servers self)
             (terms_of_service self) (contact self) (license_info self)
             (routing.webhooks (router self))
       ∧ self1 = set_openapi_schema (Some d) self
       ∧ calls1 = S calls).
Proof.
  intros Hu.
  set (fresh := get_openapi calls (title self) (version self) (description self)
             (routes self) (openapi_tags self) (servers self)
             (terms_of_service self) (contact self) (license_info self)
             (routing.webhooks (router self))).
  assert (Hcompile :
    ∃ d self1 calls1,
      Ok (fresh, set_openapi_schema (Some fresh) self, S calls) = Ok (d, self1, calls1)
      ∧ _openapi_schema self1 = Some d
      ∧ openapi get_openapi self1 calls1 = Ok (d, self1, calls1)
      ∧ d = fresh ∧ self1 = set_openapi_schema (Some d) self ∧ calls1 = S calls).
  { exists fresh, (set_openapi_schema (Some fresh) self), (S calls).
    repeat split. apply openapi_cache_hit; [done | done | apply get_openapi_tagged]. }
  unfold openapi at 1. rewrite Hu. simpl. fold fresh.
  destruct (_openapi_schema self) as [d|] eqn:Hs.
  - destruct (dict_truthy d) eqn:Hd.
    + exists d, self, calls. split; [done|]. split; [done|]. split; [|done].
      apply openapi_cache_hit; [done | done |].
      unfold dict_truthy in Hd. by apply bool_decide_eq_true_1 in Hd.
    + destruct Hcompile as (d' & self1 & calls1 & H1 & H2 & H3 & _).
      exists d', self1, calls1. split; [done|]. split; [done|]. split; done.
  - destruct Hcompile as (d' & self1 & calls1 & H1 & H2 & H3 & H4 & H5 & H6).
    exists d', self1, calls1. split; [done|]. split; [done|]. split; done.
Qed.

End SchemaCache.

(** The assumption on the compiler is needed: [openapi] tests the stored
    document for truth, so an empty document is compiled again on every
    call. *)
Example empty_document_compiled_again :
  ∃ self1,
    openapi empty_compiler (init_attributes Args.defaults) 0 = Ok (∅, self1, 1)
    ∧ openapi empty_compiler self1 1 = Ok (∅, self1, 2).
Proof. eexists. split; vm_compute; reflexivity. Qed.

Lemma tagged_compiler_tagged :
  ∀ calls title version description routes tags servers tos contact license webhooks,
    tagged_compiler calls title version description routes tags servers tos contact
      license webhooks ≠ ∅.
Proof. intros. unfold tagged_compiler. apply insert_non_empty. Defined.

Lemma openapi_twice_same_document_witness :
  ∃ d self1 calls1,
    openapi tagged_compiler (init_attributes Args.defaults) 0 = Ok (d, self1, calls1)
    ∧ _openapi_schema self1 = Some d
    ∧ openapi tagged_compiler self1 calls1 = Ok (d, self1, calls1)
    ∧ (_openapi_schema (init_attributes Args.defaults) = None →
       d = tagged_compiler 0 "FastAPI" "0.1.0" "" [] None [] None None None None
       ∧ self1 = set_openapi_schema (Some d) (init_attributes Args.defaults)
       ∧ calls1 = 1).
Proof.
  apply (openapi_twice_same_document tagged_compiler tagged_compiler_tagged
           (init_attributes Args.defaults) 0).
  reflexivity.
Defined.

(** ** The schema URL *)






(** ** The documentation URLs *)




(** ** The exception handler registry *)

(** Claim C4.  Registering a handler twice under one key leaves the registry
    as if only the second registration had happened: the key maps to the
    second handler, and both calls return (the method has no failing path). *)
Theorem add_exception_handler_last_write_wins (key : HandlerKey) (h1 h2 : Handler)
    (self : FastAPI) :
  let self' := add_exception_handler key h2 (add_exception_handler key h1 self) in
  exception_handlers self' !! key = Some h2
  ∧ exception_handlers self' = <[key := h2]> (exception_handlers self)
  ∧ self' = add_exception_handler key h2 self.
Proof.
  simpl. split; [apply lookup_insert_eq|].
  unfold add_exception_handler, set_exception_handlers. simpl.
  by rewrite insert_insert_eq.
Qed.

Lemma builtin_keys_distinct : StarletteHTTPException ≠ RequestValidationError.
Proof. discriminate. Qed.

(** The registry after the first step of [setup]. *)
Lemma setup_exception_handlers_registry (self : FastAPI) :
  exception_handlers (setup_exception_handlers self)
  = <[RequestValidationError := request_validation_exception_handler]>
      (<[StarletteHTTPException := http_exception_handler]> (exception_handlers self)).
Proof. reflexivity. Qed.

Lemma builtin_lookup (hs : gmap HandlerKey Handler) :
  let hs' := <[RequestValidationError := request_validation_exception_handler]>
               (<[StarletteHTTPException := http_exception_handler]> hs) in
  hs' !! StarletteHTTPException = Some http_exception_handler
  ∧ hs' !! RequestValidationError = Some request_validation_exception_handler.
Proof.
  simpl. split.
  - rewrite lookup_insert_ne by (symmetry; apply builtin_keys_distinct).
    apply lookup_insert_eq.
  - apply lookup_insert_eq.
Qed.

(** No later step of [setup] touches the registry. *)
Lemma init_registry (a : Args.t) (app : FastAPI) :
  __init__ a = Ok app →
  exception_handlers app = exception_handlers (setup_exception_handlers (init_attributes a)).
Proof. intros H. by apply init_Ok_inv in H as (_ & _ & _ & pre & ->). Qed.





(** ** Routes of the application and of the router *)

(** Claim C8 does not hold on the code.  [self.routes] is never assigned
    before [setup] reads it, so it is the property of the base class and
    designates the router's list.  For [FastAPI(routes=[Route("/items",
    items)])]: [setup] extends the router's list with itself, so that every
    route is in it twice, and no list of the application's own exists; a later
    [mount("/static", static_files)] appends the [Mount] entry to the router's
    list. *)
Theorem mount_appends_to_router_list :
  ∃ app, StarletteRoutes.__init__ args_items = Ok app
  ∧ routing.routes (router app)
    = [Route (PyStr "/items") (UserEndpoint "items") None None true;
       Route (PyStr "/openapi.json") openapi_endpoint None None false;
       Route (PyStr "/docs") swagger_ui_endpoint None None false;
       Route (PyStr "/docs/oauth2-redirect") oauth2_redirect_endpoint None None false;
       Route (PyStr "/redoc") redoc_endpoint None None false;
       Route (PyStr "/items") (UserEndpoint "items") None None true;
       Route (PyStr "/openapi.json") openapi_endpoint None None false;
       Route (PyStr "/docs") swagger_ui_endpoint None None false;
       Route (PyStr "/docs/oauth2-redirect") oauth2_redirect_endpoint None None false;
       Route (PyStr "/redoc") redoc_endpoint None None false]
  ∧ StarletteRoutes.routes app = routing.routes (router app)
  ∧ routing.routes (router (StarletteRoutes.mount "/static" "static_files" None app))
    = routing.routes (router app) ++ [Mount "/static" "static_files" None]
  ∧ routing.routes (router (StarletteRoutes.mount "/static" "static_files" None app))
    ≠ routing.routes (router app).
Proof.
  eexists. split; [vm_compute; reflexivity|].
  split; [vm_compute; reflexivity|]. split; [reflexivity|].
  split; [vm_compute; reflexivity|]. vm_compute. discriminate.
Qed.

(** ** Event handlers *)

(** Claim C9.  [add_event_handler] raises for every event type other than
    ["startup"] and ["shutdown"]; for ["startup"] it appends the function to
    the router's startup list and for ["shutdown"] to its shutdown list, each
    time at the end, so that the lists are in registration order; the other
    list is not changed. *)
Theorem add_event_handler_spec (event_type : string) (func func' : Callable)
    (self : FastAPI) :
  (event_type ≠ "startup" → event_type ≠ "shutdown" →
   add_event_handler event_type func self
   = Raise (AssertionError "event_type must be 'startup' or 'shutdown'"))
  ∧ (∃ self1 self2,
       add_event_handler "startup" func self = Ok self1
       ∧ add_event_handler "startup" func' self1 = Ok self2
       ∧ routing.on_startup (router self1) = routing.on_startup (router self) ++ [func]
       ∧ routing.on_startup (router self2)
         = routing.on_startup (router self) ++ [func; func']
       ∧ routing.on_shutdown (router self2) = routing.on_shutdown (router self))
  ∧ (∃ self1 self2,
       add_event_handler "shutdown" func self = Ok self1
       ∧ add_event_handler "shutdown" func' self1 = Ok self2
       ∧ routing.on_shutdown (router self1) = routing.on_shutdown (router self) ++ [func]
       ∧ routing.on_shutdown (router self2)
         = routing.on_shutdown (router self) ++ [func; func']
       ∧ routing.on_startup (router self2) = routing.on_startup (router self)).
Proof.
  split; [|split].
  - intros H1 H2. unfold add_event_handler, assert.
    by rewrite !bool_decide_eq_false_2.
  - eexists _, _. split; [reflexivity|]. split; [reflexivity|]. simpl.
    by rewrite <- List.app_assoc.
  - eexists _, _. split; [reflexivity|]. split; [reflexivity|]. simpl.
    by rewrite <- List.app_assoc.
Qed.

Lemma add_event_handler_spec_witness :
  add_event_handler "request" (Func "hook") (init_attributes Args.defaults)
  = Raise (AssertionError "event_type must be 'startup' or 'shutdown'").
Proof.
  apply (proj1 (add_event_handler_spec "request" (Func "hook") (Func "hook")
                  (init_attributes Args.defaults))); discriminate.
Defined.

(** * Further properties of the module *)

(** ** [add_middleware] and the middleware list that [setup] builds *)

(** A sequence of [add_middleware] calls leaves its entries in front of the
    entries that were there, the most recent call first, and changes no other
    attribute. *)
Theorem add_middlewares_most_recent_first (ms : list Middleware) (self : FastAPI) :
  add_middlewares ms self = set_user_middleware (rev ms ++ user_middleware self) self
  ∧ user_middleware (add_middlewares ms self) = rev ms ++ user_middleware self
  ∧ length (user_middleware (add_middlewares ms self))
    = length ms + length (user_middleware self).
Proof.
  unfold add_middlewares. rewrite add_constructor_middleware. simpl.
  split; [reflexivity|]. split; [reflexivity|].
  by rewrite length_app, length_rev.
Qed.

(** The loop over [reversed(self.user_middleware)], started on a list of [n]
    entries, runs [n] steps; each step prepends an entry that already is in
    the list, and the first step prepends the last entry of the list. *)
Lemma readd_reversed_spec (n : nat) (self : FastAPI) :
  n ≤ length (user_middleware self) →
  ∃ pre,
    readd_reversed n self = set_user_middleware (pre ++ user_middleware self) self
    ∧ length pre = n
    ∧ (∀ m, m ∈ pre → m ∈ user_middleware self)
    ∧ (∀ i, n = S i → last pre = user_middleware self !! i).
Proof.
  revert self. induction n as [|n IH]; intros self Hn; simpl.
  - exists []. split; [by destruct self|]. split; [done|]. split; [|done].
    intros m Hm. by apply elem_of_nil in Hm.
  - destruct (user_middleware self !! n) as [m|] eqn:Hm.
    2:{ apply lookup_ge_None in Hm. lia. }
    destruct (IH (add_middleware (cls m) (options m) self))
      as (pre & -> & Hlen & Hin & _); [simpl; lia|].
    simpl in Hin. rewrite Middleware_eta in Hin.
    exists (pre ++ [m]). split; [|split; [|split]].
    + unfold add_middleware. rewrite set_user_middleware_twice, Middleware_eta.
      simpl. by rewrite <- List.app_assoc.
    + rewrite length_app. simpl. lia.
    + intros m' [Hm'| ->%list_elem_of_singleton]%elem_of_app.
      * apply Hin, elem_of_cons in Hm' as [->|]; [|done].
        by eapply list_elem_of_lookup_2.
      * by eapply list_elem_of_lookup_2.
    + intros i [= <-]. by rewrite last_snoc.
Qed.

(** The object a construction returns, as [setup] leaves it. *)
Lemma init_Ok_app (a : Args.t) (app : FastAPI) :
  __init__ a = Ok app →
  app = setup_middleware
          (set_routes
             (Args.base_routes a ++ default [] (Args.routes a)
              ++ url_routes (init_attributes a))
             (router_with (url_routes (init_attributes a))
                (setup_exception_handlers (init_attributes a)))).
Proof.
  unfold __init__. rewrite setup_eq. simpl.
  destruct (truthy (Args.openapi_url a) && negb (is_json_path (Args.openapi_url a)));
    [discriminate|].
  destruct (truthy (Args.docs_url a) && negb (isinstance_str (Args.docs_url a)));
    [discriminate|].
  destruct (truthy (Args.redoc_url a) && negb (isinstance_str (Args.redoc_url a)));
    [discriminate|].
  by intros [= <-].
Qed.

Lemma constructed_user_middleware (a : Args.t) (app : FastAPI) :
  __init__ a = Ok app →
  let installed :=
    rev (default [] (Args.middleware a)) ++ [error_boundary (Args.debug a)] in
  ∃ pre,
    user_middleware app = pre ++ installed
    ∧ length pre = length installed
    ∧ (∀ m, m ∈ pre → m ∈ installed)
    ∧ last pre = Some (error_boundary (Args.debug a)).
Proof.
  intros Hinit installed. apply init_Ok_app in Hinit as ->.
  unfold setup_middleware. rewrite add_constructor_middleware. simpl.
  fold (error_boundary (Args.debug a)).
  change (rev (default [] (Args.middleware a)) ++ [error_boundary (Args.debug a)])
    with installed.
  match goal with |- context [readd_reversed ?n ?s] =>
    destruct (readd_reversed_spec n s) as (pre & -> & Hlen & Hin & Hlast); [done|] end.
  simpl in *. exists pre. split; [reflexivity|]. split; [exact Hlen|].
  split; [exact Hin|].
  rewrite (Hlast (length (rev (default [] (Args.middleware a))))).
  - subst installed. by rewrite lookup_app_r, Nat.sub_diag.
  - subst installed. rewrite length_app. simpl. lia.
Qed.





(** ** The routes that [setup] registers *)

Lemma init_router_routes (a : Args.t) (app : FastAPI) :
  __init__ a = Ok app →
  routing.routes (router app) = default [] (Args.routes a) ++ url_routes (init_attributes a)
  ∧ routes app = Args.base_routes a ++ routing.routes (router app).
Proof. intros H. by apply init_Ok_inv in H as (_ & _ & _ & pre & ->). Qed.

Lemma url_routes_shape (self : FastAPI) (r : BaseRoute) :
  r ∈ url_routes self →
  ∃ path e,
    r = Route path e None None false ∧ truthy path = true
    ∧ e ∈ [openapi_endpoint; swagger_ui_endpoint; oauth2_redirect_endpoint;
           redoc_endpoint].
Proof.
  unfold url_routes.
  destruct (truthy (openapi_url self)) eqn:Hu;
  destruct (truthy (docs_url self)) eqn:Hd;
  destruct (truthy (swagger_ui_oauth2_redirect_url self)) eqn:Ho;
  destruct (truthy (redoc_url self)) eqn:Hre; simpl;
  rewrite ?elem_of_cons, ?elem_of_nil;
  intuition (subst; eexists _, _; split; [reflexivity|]; split; [assumption|];
             repeat constructor).
Qed.





(** ** More on the schema cache *)



(** A stored document is never invalidated: after [mount], [add_route],
    [add_exception_handler] or [add_middleware], [openapi] still returns the
    document stored before, without invoking the compiler. *)
Theorem cached_schema_survives_registration (get_openapi : SchemaCompiler)
    (self : FastAPI) (d : gmap string PyVal) (calls : nat)
    (path sub : string) (name : option string)
    (p : PyVal) (e : Endpoint) (ms : option (list string)) (n : option string) (b : bool)
    (key : HandlerKey) (h : Handler) (c : MiddlewareClass) (kw : gmap string PyVal) :
  truthy (openapi_url self) = true →
  _openapi_schema self = Some d →
  d ≠ ∅ →
  openapi get_openapi (mount path sub name self) calls
  = Ok (d, mount path sub name self, calls)
  ∧ openapi get_openapi (add_route p e ms n b self) calls
    = Ok (d, add_route p e ms n b self, calls)
  ∧ openapi get_openapi (add_exception_handler key h self) calls
    = Ok (d, add_exception_handler key h self, calls)
  ∧ openapi get_openapi (add_middleware c kw self) calls
    = Ok (d, add_middleware c kw self, calls).
Proof.
  intros Hu Hs Hd. repeat split; by apply openapi_cache_hit.
Qed.

Lemma cached_schema_survives_registration_witness :
  let self := set_openapi_schema (Some {["openapi" := PyStr "3.0.2"]})
                (init_attributes Args.defaults) in
  openapi empty_compiler (mount "/static" "static_files" None self) 0
  = Ok ({["openapi" := PyStr "3.0.2"]}, mount "/static" "static_files" None self, 0).
Proof.
  apply (cached_schema_survives_registration empty_compiler
           (set_openapi_schema (Some {["openapi" := PyStr "3.0.2"]})
              (init_attributes Args.defaults))
           {["openapi" := PyStr "3.0.2"]} 0 "/static" "static_files" None
           PyNone openapi_endpoint None None false (StatusCode 404)
           http_exception_handler ServerErrorMiddleware ∅);
    [reflexivity | reflexivity | apply insert_non_empty].
Defined.

(** With a truthy schema URL, [openapi] returns the stored document without
    invoking the compiler exactly when a non-empty document is stored; when
    nothing or the empty dict is stored it invokes the compiler once and
    stores what the compiler returns, whatever that is. *)
Theorem openapi_compiles_on_miss_only (get_openapi : SchemaCompiler)
    (self : FastAPI) (calls : nat) :
  truthy (openapi_url self) = true →
  let fresh :=
    get_openapi calls (title self) (version self) (description self) (routes self)
      (openapi_tags self) (servers self) (terms_of_service self) (contact self)
      (license_info self) (routing.webhooks (router self)) in
  (∀ d, _openapi_schema self = Some d → d ≠ ∅ →
        openapi get_openapi self calls = Ok (d, self, calls))
  ∧ (_openapi_schema self = None ∨ _openapi_schema self = Some ∅ →
     openapi get_openapi self calls
     = Ok (fresh, set_openapi_schema (Some fresh) self, S calls))
  ∧ (∀ d self' calls', openapi get_openapi self calls = Ok (d, self', calls') →
       calls' = calls ∨ calls' = S calls).
Proof.
  intros Hu fresh. split; [|split].
  - intros d Hs Hd. by apply openapi_cache_hit.
  - unfold openapi. rewrite Hu. simpl. by intros [-> | ->].
  - intros d self' calls'. unfold openapi. rewrite Hu. simpl.
    destruct (_openapi_schema self) as [d0|]; [destruct (dict_truthy d0)|];
      intros [= <- <- <-]; auto.
Qed.

Lemma openapi_compiles_on_miss_only_witness :
  let self := set_openapi_schema (Some ∅) (init_attributes Args.defaults) in
  openapi tagged_compiler self 3
  = Ok (tagged_compiler 3 "FastAPI" "0.1.0" "" [] None [] None None None None,
        set_openapi_schema
          (Some (tagged_compiler 3 "FastAPI" "0.1.0" "" [] None [] None None None None))
          self,
        4).
Proof.
  apply (proj1 (proj2 (openapi_compiles_on_miss_only tagged_compiler
           (set_openapi_schema (Some ∅) (init_attributes Args.defaults)) 3 eq_refl))).
  by right.
Defined.



(** ** More on the exception handler registry *)





(** ** More on event handlers *)

Lemma register_events_spec (events : list (string * Callable)) (self : FastAPI) :
  Forall (λ ev, ev.1 = "startup" ∨ ev.1 = "shutdown") events →
  register_events events self
  = Ok (set_router
          (routing.mkAPIRouter (routing.routes (router self))
             (routing.on_startup (router self)
              ++ (snd <$> filter (λ ev, ev.1 = "startup") events))
             (routing.on_shutdown (router self)
              ++ (snd <$> filter (λ ev, ev.1 = "shutdown") events))
             (routing.webhooks (router self)))
          self).
Proof.
  unfold register_events. revert self.
  induction events as [|[et f] events IH]; intros self Hall.
  - simpl. destruct self as [? [] ? ? ? ? ? ? ? ? ? ? ? ? ? ? ? ? ?].
    unfold set_router. simpl. by rewrite !app_nil_r.
  - apply Forall_cons in Hall as [[Het|Het] Hall]; simpl in Het; subst et; simpl.
    + change (add_event_handler "startup" f self)
        with (Ok (set_router (routing.append_on_startup f (router self)) self)).
      rewrite IH by done.
      unfold set_router. simpl. by rewrite <- List.app_assoc.
    + change (add_event_handler "shutdown" f self)
        with (Ok (set_router (routing.append_on_shutdown f (router self)) self)).
      rewrite IH by done.
      unfold set_router. simpl. by rewrite <- List.app_assoc.
Qed.

Lemma init_hooks (a : Args.t) (app : FastAPI) :
  __init__ a = Ok app →
  routing.on_startup (router app) = default [] (Args.on_startup a)
  ∧ routing.on_shutdown (router app) = default [] (Args.on_shutdown a).
Proof.
  intros Hinit. apply init_Ok_inv in Hinit as (_ & _ & _ & pre & ->).
  split; reflexivity.
Qed.



(** A sequence of registrations under an event type that is neither
    ["startup"] nor ["shutdown"] raises at its first call, and a startup and
    a shutdown registration give the same object in either order. *)
Theorem add_event_handlers_errors_and_order (event_type : string) (f g : Callable)
    (fs : list Callable) (self : FastAPI) :
  (event_type ≠ "startup" → event_type ≠ "shutdown" →
   add_event_handlers event_type (f :: fs) self
   = Raise (AssertionError "event_type must be 'startup' or 'shutdown'"))
  ∧ (add_event_handler "startup" f self ≫= add_event_handler "shutdown" g)
    = (add_event_handler "shutdown" g self ≫= add_event_handler "startup" f).
Proof.
  split; [|reflexivity].
  intros H1 H2. unfold add_event_handlers. simpl.
  replace (add_event_handler event_type f self)
    with (@Raise FastAPI (AssertionError "event_type must be 'startup' or 'shutdown'")).
  - induction fs as [|f' fs IH]; [reflexivity | exact IH].
  - unfold add_event_handler, assert. by rewrite !bool_decide_eq_false_2.
Qed.

Lemma add_event_handlers_errors_and_order_witness :
  add_event_handlers "request" [Func "a"; Func "b"] (init_attributes Args.defaults)
  = Raise (AssertionError "event_type must be 'startup' or 'shutdown'").
Proof.
  apply (proj1 (add_event_handlers_errors_and_order "request" (Func "a") (Func "a")
                  [Func "b"] (init_attributes Args.defaults))); discriminate.
Defined.

(** ** Running [setup] again *)

Lemma setup_middleware_length (self : FastAPI) :
  length (user_middleware (setup_middleware self))
  = 2 * (length (middleware self) + 1 + length (user_middleware self)).
Proof.
  unfold setup_middleware. rewrite add_constructor_middleware. simpl.
  match goal with |- context [readd_reversed ?n ?s] =>
    destruct (readd_reversed_spec n s) as (pre & -> & Hlen & _); [done|] end.
  simpl in *. rewrite length_app, Hlen, length_app, length_rev. simpl. lia.
Qed.

Lemma init_config (a : Args.t) (app : FastAPI) :
  __init__ a = Ok app →
  openapi_url app = Args.openapi_url a
  ∧ docs_url app = Args.docs_url a
  ∧ redoc_url app = Args.redoc_url a
  ∧ swagger_ui_oauth2_redirect_url app = Args.swagger_ui_oauth2_redirect_url a
  ∧ middleware app = default [] (Args.middleware a).
Proof.
  intros Hinit. apply init_Ok_inv in Hinit as (_ & _ & _ & pre & ->).
  by repeat split.
Qed.



(** ** Which schema URLs pass the assertion *)

Lemma substring_whole (s : string) : String.substring 0 (String.length s) s = s.
Proof. induction s as [|c s IH]; simpl; [reflexivity | by rewrite IH]. Qed.

Lemma substring_after_prefix (p s : string) (m : nat) :
  String.substring (String.length p) m (p +:+ s) = String.substring 0 m s.
Proof. induction p as [|c p IH]; simpl; [reflexivity | exact IH]. Qed.

Lemma length_append (p s : string) :
  String.length (p +:+ s) = String.length p + String.length s.
Proof. induction p as [|c p IH]; simpl; [reflexivity | by rewrite IH]. Qed.

Lemma append_String (c : Ascii.ascii) (p s : string) :
  String c p +:+ s = String c (p +:+ s).
Proof. reflexivity. Qed.

Lemma substring_split (s : string) (k : nat) :
  k ≤ String.length s →
  s = String.substring 0 k s +:+ String.substring k (String.length s - k) s.
Proof.
  revert k. induction s as [|c s IH]; intros k Hk; simpl in *.
  - by destruct k.
  - destruct k as [|k]; simpl.
    + by rewrite substring_whole.
    + rewrite append_String. f_equal. apply IH. lia.
Qed.

Lemma endswith_spec (s suffix : string) :
  endswith s suffix = true ↔ ∃ prefix, s = prefix +:+ suffix.
Proof.
  unfold endswith. split.
  - destruct (String.length suffix <=? String.length s) eqn:Hle; [|discriminate].
    apply Nat.leb_le in Hle. intros Heq%String.eqb_eq.
    exists (String.substring 0 (String.length s - String.length suffix) s).
    pose proof (substring_split s (String.length s - String.length suffix)) as Hsplit.
    replace (String.length s - (String.length s - String.length suffix))
      with (String.length suffix) in Hsplit by lia.
    rewrite Heq in Hsplit. apply Hsplit. lia.
  - intros [prefix ->]. rewrite length_append.
    replace (String.length suffix <=? String.length prefix + String.length suffix)
      with true by (symmetry; apply Nat.leb_le; lia).
    replace (String.length prefix + String.length suffix - String.length suffix)
      with (String.length prefix) by lia.
    rewrite substring_after_prefix, substring_whole. apply String.eqb_refl.
Qed.


